(** * OCP-TAP TimeCard platform description

    Shallow embedding of [litex_boards/platforms/ocp_tap_timecard.py]:
    the [_io] pin table, the [Platform] constructor with its two toolchain
    command lists, [create_programmer] and [do_finalize].

    The board file is a subclass of LiteX's [Xilinx7SeriesPlatform]; what
    the subclass inherits from LiteX is kept behind an interface (a type
    class of that name) and the definitions below state what they assume of
    it. *)

From Stdlib Require Import String Ascii List Bool Arith ZArith PrimFloat Lia.
Import ListNotations.
Open Scope string_scope.

(** ** Outcomes of a Python call *)

(** The two error kinds the specification names, and a third for whatever
    the inherited LiteX code raises. *)
Inductive ErrorKind : Type :=
| UnsupportedProgrammer
| MissingClockConstraint
| BaseError (msg : string).

(** A call either returns a value or raises. *)
Inductive Outcome (A : Type) : Type :=
| Return (a : A)
| Raise (e : ErrorKind).

Arguments Return {A} a.
Arguments Raise {A} e.

Definition bind {A B : Type} (m : Outcome A) (k : A -> Outcome B) : Outcome B :=
  match m with
  | Return a => k a
  | Raise e => Raise e
  end.

Notation "x <- m ;; k" := (bind m (fun x => k))
  (at level 61, m at next level, right associativity).

(** A Python keyword argument with a default value. *)
Definition kwarg {A : Type} (default : A) (given : option A) : A :=
  match given with
  | Some a => a
  | None => default
  end.

(** ** Constraint objects of [litex.build.generic_platform] *)

(** [Pins] keeps the string the board file writes; [identifiers] below
    splits it into pin names. *)
#[local] Set Warnings "-register-all".

Inductive Constraint : Type :=
| Pins (identifiers : string)
| IOStandard (name : string)
| Misc (misc : string)
| Subsignal (name : string) (constraints : list Constraint).

(** One row of the table: the Python tuple [(name, number, *constraints)]. *)
Record PinConstraint : Type := Row {
  signal_name : string;
  index : Z;
  constraints : list Constraint
}.

(** Strings hold the UTF-8 bytes of the Python text. *)

(** The ASCII characters Python's [str.isspace] accepts: tab to carriage
    return, the four separators 28 to 31, and the blank. *)
Definition is_space (c : ascii) : bool :=
  match nat_of_ascii c with
  | 9 | 10 | 11 | 12 | 13 | 28 | 29 | 30 | 31 | 32 => true
  | _ => false
  end.

(** The byte at position [n] of [s], 0 past its end. *)
Definition byte_at (n : nat) (s : string) : nat :=
  match String.get n s with
  | Some c => nat_of_ascii c
  | None => 0
  end.

(** The number of bytes of the white-space character [s] starts with, 0
    when it starts with none.  Besides the ASCII ones, Python's
    [str.isspace] accepts U+0085 and U+00A0 (two bytes), and U+1680,
    U+2000 to U+200A, U+2028, U+2029, U+202F, U+205F and U+3000 (three
    bytes). *)
Definition space_width (s : string) : nat :=
  let b1 := byte_at 0 s in
  let b2 := byte_at 1 s in
  let b3 := byte_at 2 s in
  match s with
  | EmptyString => 0
  | String c _ =>
      if is_space c then 1
      else if (b1 =? 194) && ((b2 =? 133) || (b2 =? 160)) then 2
      else if (b1 =? 225) && (b2 =? 154) && (b3 =? 128) then 3
      else if (b1 =? 226) && (b2 =? 128)
              && (((128 <=? b3) && (b3 <=? 138))
                  || (b3 =? 168) || (b3 =? 169) || (b3 =? 175)) then 3
      else if (b1 =? 226) && (b2 =? 129) && (b3 =? 159) then 3
      else if (b1 =? 227) && (b2 =? 128) && (b3 =? 128) then 3
      else 0
  end%nat.

(** Python's [str.split()] without argument: maximal runs of characters
    that are not white space.  [cur] is the run being read, [skip] the
    number of bytes left of a white-space character already recognised. *)
Fixpoint split_from (skip : nat) (cur : string) (s : string) : list string :=
  match s with
  | EmptyString =>
      match cur with
      | EmptyString => []
      | _ => [cur]
      end
  | String c rest =>
      match skip with
      | S k => split_from k cur rest
      | O =>
          match space_width s with
          | O => split_from 0 (cur ++ String c EmptyString) rest
          | S k =>
              match cur with
              | EmptyString => split_from k EmptyString rest
              | _ => cur :: split_from k EmptyString rest
              end
          end
      end
  end.

Definition split (s : string) : list string := split_from 0 EmptyString s.

(** Modelled from the spec: [Pins] itself lives in LiteX; the spec's data
    model gives a pin group as the ordered sequence of physical pin
    identifiers, which the board file writes separated by blanks. *)
Fixpoint identifiers (c : Constraint) : list string :=
  match c with
  | Pins ids => split ids
  | IOStandard _ => []
  | Misc _ => []
  | Subsignal _ cs => flat_map identifiers cs
  end.

(** Every physical pin a row binds, in table order. *)
Definition pins (r : PinConstraint) : list string :=
  flat_map identifiers (constraints r).

(** The [(signal_name, index)] pair that names a row. *)
Definition key (r : PinConstraint) : string * Z :=
  (signal_name r, index r).

Definition key_eqb (k1 k2 : string * Z) : bool :=
  String.eqb (fst k1) (fst k2) && Z.eqb (snd k1) (snd k2).

(** ** IOs *)

Definition _io : list PinConstraint := [
  (* Clk / Rst. *)
  Row "clk125" 0 [
    Subsignal "p" [Pins "F6"; IOStandard "DIFF_SSTL15"];
    Subsignal "n" [Pins "E6"; IOStandard "DIFF_SSTL15"]
  ];
  Row "clk200" 0 [
    Subsignal "p" [Pins "R4"; IOStandard "DIFF_SSTL15"];
    Subsignal "n" [Pins "T4"; IOStandard "DIFF_SSTL15"]
  ];
  Row "rst_n" 0 [Pins "T6"; IOStandard "LVCMOS15"];

  (* Leds. *)
  Row "user_led" 0 [Pins "B13"; IOStandard "LVCMOS33"];
  Row "user_led" 1 [Pins "C13"; IOStandard "LVCMOS33"];
  Row "user_led" 2 [Pins "D14"; IOStandard "LVCMOS33"];
  Row "user_led" 3 [Pins "D15"; IOStandard "LVCMOS33"];

  (* Buttons. *)
  Row "user_btn" 0 [Pins "J21"; IOStandard "LVCMOS33"];
  Row "user_btn" 1 [Pins "E13"; IOStandard "LVCMOS33"];

  (* SPIFlash. *)
  Row "flash_cs_n" 0 [Pins "T19"; IOStandard "LVCMOS33"];
  Row "flash" 0 [
    Subsignal "mosi" [Pins "P22"];
    Subsignal "miso" [Pins "R22"];
    Subsignal "wp"   [Pins "P21"];
    Subsignal "hold" [Pins "R21"];
    IOStandard "LVCMOS33"
  ];

  (* PCIe. *)
  Row "pcie_x1" 0 [
    Subsignal "rst_n" [Pins "J20"; IOStandard "LVCMOS33"; Misc "PULLUP=TRUE"];
    Subsignal "clk_p" [Pins "F10"];
    Subsignal "clk_n" [Pins "E10"];
    Subsignal "rx_p"  [Pins "D11"];
    Subsignal "rx_n"  [Pins "C11"];
    Subsignal "tx_p"  [Pins "D5"];
    Subsignal "tx_n"  [Pins "C5"]
  ];

  (* Leds. *)
  Row "led" 0 [Pins "E21"; IOStandard "LVCMOS33"];
  Row "led" 1 [Pins "D21"; IOStandard "LVCMOS33"];
  Row "led" 2 [Pins "E22"; IOStandard "LVCMOS33"];
  Row "led" 3 [Pins "D22"; IOStandard "LVCMOS33"];

  (* I2C. *)
  Row "i2c" 0 [
    Subsignal "scl" [Pins "N17"; Misc "PULLUP=True"];
    Subsignal "sda" [Pins "T16"; Misc "PULLUP=True"];
    IOStandard "LVCMOS33"
  ];

  (* PMOD. *)
  Row "pmod" 0 [Pins "M22 N22 H18 H17 H22 J22 K21 K22"; IOStandard "LVCMOS33"];

  (* GPS. *)
  Row "gps" 0 [
    Subsignal "rst_n" [Pins "Y16"];
    Subsignal "tx"    [Pins "P20"];
    Subsignal "rx"    [Pins "N15"];
    Subsignal "tp"    [Pins "W14 Y14"];
    IOStandard "LVCMOS33"
  ];
  Row "gps" 1 [
    Subsignal "rst_n" [Pins "G15"];
    Subsignal "tx"    [Pins "M17"];
    Subsignal "rx"    [Pins "J16"];
    Subsignal "tp"    [Pins "G17 G18"];
    IOStandard "LVCMOS33"
  ];

  (* SMAs. *)
  Row "sma" 0 [
    Subsignal "in"     [Pins "Y11"; IOStandard "LVCMOS33"; Misc "PULLDOWN=TRUE"];
    Subsignal "in_en"  [Pins "H15"; IOStandard "LVCMOS33"];
    Subsignal "out"    [Pins "W11"; IOStandard "LVCMOS33"; Misc "DRIVE=16"];
    Subsignal "out_en" [Pins "J15"; IOStandard "LVCMOS33"]
  ];
  Row "sma" 1 [
    Subsignal "in"     [Pins "Y12"; IOStandard "LVCMOS33"; Misc "PULLDOWN=TRUE"];
    Subsignal "in_en"  [Pins "J14"; IOStandard "LVCMOS33"];
    Subsignal "out"    [Pins "W12"; IOStandard "LVCMOS33"; Misc "DRIVE=16"];
    Subsignal "out_en" [Pins "H14"; IOStandard "LVCMOS33"]
  ];
  Row "sma" 2 [
    Subsignal "in"     [Pins "AA21"; IOStandard "LVCMOS33"; Misc "PULLDOWN=TRUE"];
    Subsignal "in_en"  [Pins "K14";  IOStandard "LVCMOS33"];
    Subsignal "out"    [Pins "V10";  IOStandard "LVCMOS33"; Misc "DRIVE=16"];
    Subsignal "out_en" [Pins "K13";  IOStandard "LVCMOS33"]
  ];
  Row "sma" 2 [
    Subsignal "in"     [Pins "AA20"; IOStandard "LVCMOS33"; Misc "PULLDOWN=TRUE"];
    Subsignal "in_en"  [Pins "L13";  IOStandard "LVCMOS33"];
    Subsignal "out"    [Pins "W10";  IOStandard "LVCMOS33"; Misc "DRIVE=16"];
    Subsignal "out_en" [Pins "M13";  IOStandard "LVCMOS33"]
  ]
].


(** ** The platform object *)

(** The toolchain object behind [self.toolchain].  The board file assigns
    two of its attributes; [backend] stands for everything else the object
    carries, which depends on the toolchain that was asked for. *)
Record Toolchain : Type := {
  backend : string;
  bitstream_commands : list string;
  additional_commands : list string
}.

(** A clock net of the elaborated design, by name. *)
Definition Signal : Type := string.

(** The attributes of a platform instance that the board file reads or
    writes, directly or through the inherited methods. *)
Record PlatformState : Type := {
  device : string;
  io : list PinConstraint;
  toolchain : Toolchain;
  clock_resources : list Signal;
  period_constraints : list (Signal * float)
}.

Definition set_bitstream_commands (self : PlatformState) (cmds : list string)
  : PlatformState :=
  {| device := device self;
     io := io self;
     toolchain := {| backend := backend (toolchain self);
                     bitstream_commands := cmds;
                     additional_commands := additional_commands (toolchain self) |};
     clock_resources := clock_resources self;
     period_constraints := period_constraints self |}.

Definition set_additional_commands (self : PlatformState) (cmds : list string)
  : PlatformState :=
  {| device := device self;
     io := io self;
     toolchain := {| backend := backend (toolchain self);
                     bitstream_commands := bitstream_commands (toolchain self);
                     additional_commands := cmds |};
     clock_resources := clock_resources self;
     period_constraints := period_constraints self |}.

(** What the board file inherits from LiteX and does not define itself.
    - [new_toolchain name]: the toolchain object the base constructor
      installs for the toolchain called [name];
    - [resolves loose name clk]: whether the lookup of [name] accepts the
      design's clock [clk], with or without loose matching;
    - [base_do_finalize]: the base platform's own finalize step. *)
Class Xilinx7SeriesPlatform : Type := {
  Fragment : Type;
  new_toolchain : string -> Toolchain;
  resolves : bool -> string -> Signal -> bool;
  base_do_finalize : PlatformState -> Fragment -> Outcome PlatformState
}.

(** Modelled from the spec: [Xilinx7SeriesPlatform.__init__] is LiteX code.
    By the spec, construction accepts any toolchain name without validation,
    sets the device identifier to the part string it is given and builds the
    IO table from the pin list it is given; nothing is requested or
    constrained yet. *)
Definition Xilinx7SeriesPlatform__init__ `{Xilinx7SeriesPlatform}
  (device : string) (io : list PinConstraint) (toolchain : string)
  : PlatformState :=
  {| device := device;
     io := io;
     toolchain := new_toolchain toolchain;
     clock_resources := [];
     period_constraints := [] |}.

(** Modelled from the spec: [lookup_request] is LiteX code.  By the spec
    the lookup resolves a name to a clock resource of the finalized design.
    For a name that resolves to nothing the model follows LiteX and not the
    spec: with [loose], as the board file calls it, the lookup returns
    [None]; only without [loose] does it raise. *)
Definition lookup_request `{Xilinx7SeriesPlatform}
  (self : PlatformState) (name : string) (loose : bool)
  : Outcome (option Signal) :=
  match find (resolves loose name) (clock_resources self) with
  | Some clk => Return (Some clk)
  | None => if loose then Return None else Raise MissingClockConstraint
  end.

(** Modelled from the spec: [add_period_constraint] is LiteX code.  By the
    spec it appends one derived timing constraint, a bound on the period of
    the clock in nanoseconds, and changes nothing else.  As in LiteX, it
    does nothing when the clock is [None]. *)
Definition add_period_constraint
  (self : PlatformState) (clk : option Signal) (period : float)
  : PlatformState :=
  match clk with
  | None => self
  | Some clk =>
      {| device := device self;
         io := io self;
         toolchain := toolchain self;
         clock_resources := clock_resources self;
         period_constraints := period_constraints self ++ [(clk, period)] |}
  end.

(** ** Programmers *)

(** The two programmer objects the board file builds, with the arguments
    it passes to their constructors. *)
Inductive Programmer : Type :=
| OpenOCD (config : string) (flash_proxy_basename : string)
| VivadoProgrammer (flash_part : string).

(** The double quote character, for the commands that embed one. *)
Definition dquote : string := String (ascii_of_nat 34) EmptyString.

(** ** Platform *)

Module Platform.

Definition default_clk_name : string := "clk200".
Definition default_clk_period : float := (1e9 / 200e6)%float.

Definition __init__ `{Xilinx7SeriesPlatform} (toolchain : option string)
  : PlatformState :=
  let toolchain := kwarg "vivado" toolchain in
  let self := Xilinx7SeriesPlatform__init__ "xc7a100t-fgg484-2" _io toolchain in
  let self := set_bitstream_commands self [
    "set_property BITSTREAM.CONFIG.SPI_BUSWIDTH 4 [current_design]";
    "set_property BITSTREAM.CONFIG.CONFIGRATE 16 [current_design]";
    "set_property BITSTREAM.GENERAL.COMPRESS TRUE [current_design]";
    "set_property CFGBVS VCCO [current_design]";
    "set_property CONFIG_VOLTAGE 3.3 [current_design]"
  ] in
  let self := set_additional_commands self [
    (* Non-Multiboot SPI-Flash bitstream generation. *)
    "write_cfgmem -force -format bin -interface spix4 -size 16 -loadbit "
      ++ dquote ++ "up 0x0 {build_name}.bit" ++ dquote
      ++ " -file {build_name}.bin";

    (* Multiboot SPI-Flash Operational bitstream generation. *)
    "set_property BITSTREAM.CONFIG.TIMER_CFG 0x0001fbd0 [current_design]";
    "set_property BITSTREAM.CONFIG.CONFIGFALLBACK Enable [current_design]";
    "write_bitstream -force {build_name}_operational.bit ";
    "write_cfgmem -force -format bin -interface spix4 -size 16 -loadbit "
      ++ dquote ++ "up 0x0 {build_name}_operational.bit" ++ dquote
      ++ " -file {build_name}_operational.bin";

    (* Multiboot SPI-Flash Fallback bitstream generation. *)
    "set_property BITSTREAM.CONFIG.NEXT_CONFIG_ADDR 0x00400000 [current_design]";
    "write_bitstream -force {build_name}_fallback.bit ";
    "write_cfgmem -force -format bin -interface spix4 -size 16 -loadbit "
      ++ dquote ++ "up 0x0 {build_name}_fallback.bit" ++ dquote
      ++ " -file {build_name}_fallback.bin"
  ] in
  self.

(** The method has no [else] branch: for any other name the Python
    function falls off its end and returns [None]. *)
Definition create_programmer (self : PlatformState) (name : option string)
  : Outcome (option Programmer) :=
  let name := kwarg "openocd" name in
  if name =? "openocd" then
    Return (Some (OpenOCD "openocd_xc7_ft232.cfg" "bscan_spi_xc7a200t.bit"))
  else if name =? "vivado" then
    (* TODO: some board versions may have s25fl128s *)
    Return (Some (VivadoProgrammer "s25fl256sxxxxxx0-spi-x1_x2_x4"))
  else
    Return None.

Definition do_finalize `{Xilinx7SeriesPlatform}
  (self : PlatformState) (fragment : Fragment) : Outcome PlatformState :=
  self <- base_do_finalize self fragment ;;
  clk <- lookup_request self "clk200" true ;;
  Return (add_period_constraint self clk (1e9 / 200e6)%float).

End Platform.

(** ** The descriptor seen from outside *)

(** The spec's [PlatformDescriptor]: the attributes of an instance as
    Python resolves them, the two default-clock ones on the class. *)
Record PlatformDescriptor : Type := {
  device_id : string;
  io_table : list PinConstraint;
  default_clock_name : string;
  default_clock_period_ns : float;
  pre_bitstream_commands : list string;
  post_build_commands : list string
}.

Definition descriptor (self : PlatformState) : PlatformDescriptor :=
  {| device_id := device self;
     io_table := io self;
     default_clock_name := Platform.default_clk_name;
     default_clock_period_ns := Platform.default_clk_period;
     pre_bitstream_commands := bitstream_commands (toolchain self);
     post_build_commands := additional_commands (toolchain self) |}.

(** ** Checks on the pin table *)

(** No string occurs twice. *)
Fixpoint all_distinct (l : list string) : bool :=
  match l with
  | [] => true
  | x :: l' => negb (existsb (String.eqb x) l') && all_distinct l'
  end.

(** The rows named [(name, number)], in table order. *)
Definition rows_named (name : string) (number : Z) (table : list PinConstraint)
  : list PinConstraint :=
  filter (fun r => key_eqb (key r) (name, number)) table.

(** The strings the [Pins] of a constraint are written with. *)
Fixpoint pin_strings (c : Constraint) : list string :=
  match c with
  | Pins ids => [ids]
  | IOStandard _ => []
  | Misc _ => []
  | Subsignal _ cs => flat_map pin_strings cs
  end.

(** Every byte of [s] is an ASCII character. *)
Definition ascii_only (s : string) : bool :=
  forallb (fun c => (nat_of_ascii c <? 128)%nat) (list_ascii_of_string s).

(** The string of the given bytes. *)
Definition of_bytes (bytes : list nat) : string :=
  string_of_list_ascii (map ascii_of_nat bytes).

(** The keys that a row shares with a row further down the table. *)
Fixpoint repeated_keys (table : list PinConstraint) : list (string * Z) :=
  match table with
  | [] => []
  | r :: rest =>
      if existsb (fun r' => key_eqb (key r) (key r')) rest
      then key r :: repeated_keys rest
      else repeated_keys rest
  end.

(** ** A small stand-in for LiteX, to run the definitions *)

(** Strict lookup wants the clock's own name; loose lookup also takes a
    clock whose name starts with the requested one. *)
Definition demo_resolves (loose : bool) (name : string) (clk : Signal) : bool :=
  if loose then prefix name clk else name =? clk.

(** A design, for the stand-in, is the list of the clocks it requested;
    its finalize step records them. *)
Definition demo_do_finalize (self : PlatformState) (fragment : list Signal)
  : Outcome PlatformState :=
  Return {| device := device self;
            io := io self;
            toolchain := toolchain self;
            clock_resources := fragment;
            period_constraints := period_constraints self |}.

Definition demo_litex : Xilinx7SeriesPlatform := {|
  Fragment := list Signal;
  new_toolchain := fun name =>
    {| backend := name; bitstream_commands := []; additional_commands := [] |};
  resolves := demo_resolves;
  base_do_finalize := demo_do_finalize
|}.

(** The platform built on the stand-in with the default toolchain. *)
Definition demo_platform : PlatformState := @Platform.__init__ demo_litex None.

(** * Properties *)

(** ** Lists *)

Lemma all_distinct_NoDup (l : list string) :
  all_distinct l = true -> NoDup l.
Proof.
  induction l as [|x l IH]; simpl; intro H.
  - constructor.
  - apply andb_true_iff in H as [Hx Hl].
    constructor; [|now apply IH].
    intro Hin.
    apply negb_true_iff in Hx.
    assert (existsb (String.eqb x) l = true) as Hex.
    { apply existsb_exists. exists x. split; [assumption|apply String.eqb_refl]. }
    congruence.
Qed.

Lemma NoDup_app_disjoint {A : Type} (l1 l2 : list A) (x : A) :
  NoDup (l1 ++ l2) -> In x l1 -> In x l2 -> False.
Proof.
  induction l1 as [|a l1 IH]; simpl; intros Hnd H1 H2.
  - exact H1.
  - inversion Hnd as [|? ? Hnotin Hrest]; subst.
    destruct H1 as [-> | H1].
    + apply Hnotin, in_or_app. now right.
    + now apply IH.
Qed.

Lemma In_nth_error_flat_map {A B : Type} (f : A -> list B) (l : list A)
  (i : nat) (a : A) (x : B) :
  nth_error l i = Some a -> In x (f a) -> In x (flat_map f l).
Proof.
  intros Hi Hx. apply in_flat_map. exists a. split; [|assumption].
  now apply nth_error_In with i.
Qed.

(** When the concatenation of the images has no repeat, the images of two
    different positions share nothing. *)
Lemma NoDup_flat_map_positions {A B : Type} (f : A -> list B) (l : list A) :
  NoDup (flat_map f l) ->
  forall i j a b x,
    i <> j -> nth_error l i = Some a -> nth_error l j = Some b ->
    In x (f a) -> In x (f b) -> False.
Proof.
  induction l as [|c l IH]; intros Hnd i j a b x Hij Hi Hj Ha Hb.
  - destruct i; discriminate.
  - simpl in Hnd.
    destruct i as [|i], j as [|j]; simpl in Hi, Hj.
    + now apply Hij.
    + injection Hi as ->.
      apply (NoDup_app_disjoint _ _ x Hnd Ha).
      now apply In_nth_error_flat_map with j b.
    + injection Hj as ->.
      apply (NoDup_app_disjoint _ _ x Hnd Hb).
      now apply In_nth_error_flat_map with i a.
    + apply (IH (NoDup_app_remove_l _ _ Hnd) i j a b x); auto.
Qed.

Lemma find_all_false {A : Type} (f : A -> bool) (l : list A) :
  (forall x, In x l -> f x = false) -> find f l = None.
Proof.
  induction l as [|a l IH]; simpl; intro H.
  - reflexivity.
  - rewrite (H a (or_introl eq_refl)). apply IH.
    intros x Hx. apply H. now right.
Qed.

Lemma find_some_exists {A : Type} (f : A -> bool) (l : list A) :
  (exists x, In x l /\ f x = true) -> exists y, find f l = Some y.
Proof.
  intros [x [Hin Hfx]].
  destruct (find f l) as [y|] eqn:Hfind.
  - now exists y.
  - rewrite (find_none f l Hfind x Hin) in Hfx. discriminate.
Qed.

(** ** The pin table *)

Example split_bus :
  split "M22 N22 H18 H17 H22 J22 K21 K22"
    = ["M22"; "N22"; "H18"; "H17"; "H22"; "J22"; "K21"; "K22"].
Proof. reflexivity. Qed.

Example split_blanks : split "  W14   Y14 " = ["W14"; "Y14"].
Proof. reflexivity. Qed.

(** A no-break space (U+00A0), a next-line character (U+0085) and an em
    space (U+2003) separate names as the blank does. *)
Example split_beyond_ascii :
  split (of_bytes [65; 49; 194; 160; 66; 50; 194; 133; 67; 51;
                   226; 128; 131; 68; 52])
    = ["A1"; "B2"; "C3"; "D4"].
Proof. reflexivity. Qed.

(** A character that shares bytes with a white-space one is not cut:
    U+00E0 is the bytes 195, 160. *)
Example split_keeps_letters :
  split (of_bytes [65; 195; 160; 66]) = [of_bytes [65; 195; 160; 66]].
Proof. reflexivity. Qed.

(** Every [Pins] string of the table is plain ASCII. *)
Lemma io_pin_strings_ascii :
  forallb ascii_only
    (flat_map (fun r => flat_map pin_strings (constraints r)) _io) = true.
Proof. vm_compute. reflexivity. Qed.

Example pins_gps0 :
  option_map pins (nth_error _io 18)
    = Some ["Y16"; "P20"; "N15"; "W14"; "Y14"].
Proof. reflexivity. Qed.

Lemma io_pins_NoDup : NoDup (flat_map pins _io).
Proof. apply all_distinct_NoDup. vm_compute. reflexivity. Qed.

(** Two rows at different places of the table bind no pin in common. *)
Lemma io_rows_disjoint (i j : nat) (r1 r2 : PinConstraint) (p : string) :
  i <> j -> nth_error _io i = Some r1 -> nth_error _io j = Some r2 ->
  In p (pins r1) -> ~ In p (pins r2).
Proof.
  intros Hij H1 H2 Hp1 Hp2.
  exact (NoDup_flat_map_positions pins _io io_pins_NoDup i j r1 r2 p Hij H1 H2 Hp1 Hp2).
Qed.

(** C7: in [_io], two rows with different [(signal_name, index)] pairs never
    bind the same physical pin; and the table has exactly two rows labelled
    [("sma", 2)], which bind disjoint pins, and no row labelled
    [("sma", 3)]. *)
Theorem io_no_double_binding :
  (forall i j r1 r2 p,
      nth_error _io i = Some r1 -> nth_error _io j = Some r2 ->
      key r1 <> key r2 ->
      In p (pins r1) -> ~ In p (pins r2))
  /\ (exists r1 r2,
         rows_named "sma" 2 _io = [r1; r2]
         /\ pins r1 = ["AA21"; "K14"; "V10"; "K13"]
         /\ pins r2 = ["AA20"; "L13"; "W10"; "M13"]
         /\ forall p, In p (pins r1) -> ~ In p (pins r2))
  /\ rows_named "sma" 3 _io = [].
Proof.
  split; [|split].
  - intros i j r1 r2 p H1 H2 Hkey.
    apply io_rows_disjoint with i j; try assumption.
    intros ->. rewrite H1 in H2. injection H2 as ->. now apply Hkey.
  - eexists. eexists. split; [reflexivity|].
    split; [reflexivity|]. split; [reflexivity|].
    intros p.
    apply (io_rows_disjoint 22 23); [discriminate|reflexivity|reflexivity].
  - reflexivity.
Qed.

(** C7 at the two clocks: rows 0 ([clk125]) and 1 ([clk200]) have different
    keys, so pin [F6] of the first is not a pin of the second. *)
Lemma io_no_double_binding_witness :
  ~ In "F6" (pins (Row "clk200" 0 [
       Subsignal "p" [Pins "R4"; IOStandard "DIFF_SSTL15"];
       Subsignal "n" [Pins "T4"; IOStandard "DIFF_SSTL15"]])).
Proof.
  apply (proj1 io_no_double_binding 0%nat 1%nat
           (Row "clk125" 0 [
              Subsignal "p" [Pins "F6"; IOStandard "DIFF_SSTL15"];
              Subsignal "n" [Pins "E6"; IOStandard "DIFF_SSTL15"]])).
  - reflexivity.
  - reflexivity.
  - discriminate.
  - simpl. left. reflexivity.
Defined.

(** ** Programmers *)

(** C4: [create_programmer("openocd")] returns an OpenOCD handle with
    configuration file [openocd_xc7_ft232.cfg] and boundary-scan bitstream
    [bscan_spi_xc7a200t.bit]; [create_programmer("vivado")] returns a Vivado
    handle with flash part [s25fl256sxxxxxx0-spi-x1_x2_x4]. *)
Theorem create_programmer_handles (self : PlatformState) :
  Platform.create_programmer self (Some "openocd")
    = Return (Some (OpenOCD "openocd_xc7_ft232.cfg" "bscan_spi_xc7a200t.bit"))
  /\ Platform.create_programmer self (Some "vivado")
    = Return (Some (VivadoProgrammer "s25fl256sxxxxxx0-spi-x1_x2_x4")).
Proof. split; reflexivity. Qed.

(** C2, as the specification has it, fails: for [bogus] the method raises
    nothing, it returns [None]. *)
Lemma create_programmer_bogus_not_raised :
  Platform.create_programmer demo_platform (Some "bogus") = Return None
  /\ Platform.create_programmer demo_platform (Some "bogus")
       <> Raise UnsupportedProgrammer.
Proof. split; [reflexivity|discriminate]. Qed.

(** C2, amended: for every name other than [openocd] and [vivado],
    [create_programmer] raises no error and returns no programmer (Python's
    [None]); in particular it does not fall back to one of the two
    backends. *)
Theorem create_programmer_other_name (self : PlatformState) (name : string) :
  name <> "openocd" -> name <> "vivado" ->
  Platform.create_programmer self (Some name) = Return None.
Proof.
  intros Ho Hv. unfold Platform.create_programmer, kwarg.
  apply String.eqb_neq in Ho, Hv. now rewrite Ho, Hv.
Qed.

Lemma create_programmer_other_name_witness :
  Platform.create_programmer demo_platform (Some "bogus") = Return None.
Proof.
  apply (create_programmer_other_name demo_platform "bogus"); discriminate.
Defined.

Section WithLitex.

Context {litex : Xilinx7SeriesPlatform}.

(** ** Construction *)

(** C5: whatever toolchain name the constructor is given, or none, the
    descriptor's device identifier is [xc7a100t-fgg484-2]. *)
Theorem init_device_id (toolchain : option string) :
  device_id (descriptor (Platform.__init__ toolchain)) = "xc7a100t-fgg484-2".
Proof. reflexivity. Qed.

(** C6: the default clock is called [clk200], its period [1e9/200e6] is the
    float 5.0, and the IO table of the descriptor has a row of that name. *)
Theorem default_clock (toolchain : option string) :
  let d := descriptor (Platform.__init__ toolchain) in
  default_clock_name d = "clk200"
  /\ default_clock_period_ns d = 5%float
  /\ PrimFloat.eqb (default_clock_period_ns d) 5%float = true
  /\ exists r, In r (io_table d) /\ signal_name r = default_clock_name d.
Proof.
  cbv zeta. repeat split.
  exists (Row "clk200" 0 [
            Subsignal "p" [Pins "R4"; IOStandard "DIFF_SSTL15"];
            Subsignal "n" [Pins "T4"; IOStandard "DIFF_SSTL15"]]).
  split; [|reflexivity].
  simpl. right. left. reflexivity.
Qed.

(** C1, amended: for every construction, [bitstream_commands] has exactly
    the 5 entries of spec 4.1 in its order, and [additional_commands] has
    exactly 8 entries, which carry out the six post-build steps of spec 4.1
    in order, steps 4 and 6 with two commands each: a [write_bitstream]
    and the [write_cfgmem] of the image it wrote. *)
Theorem init_command_lists (toolchain : option string) :
  let d := descriptor (Platform.__init__ toolchain) in
  pre_bitstream_commands d = [
    "set_property BITSTREAM.CONFIG.SPI_BUSWIDTH 4 [current_design]";
    "set_property BITSTREAM.CONFIG.CONFIGRATE 16 [current_design]";
    "set_property BITSTREAM.GENERAL.COMPRESS TRUE [current_design]";
    "set_property CFGBVS VCCO [current_design]";
    "set_property CONFIG_VOLTAGE 3.3 [current_design]"]
  /\ length (pre_bitstream_commands d) = 5
  /\ post_build_commands d = List.concat [
    (* 1 *)
    ["write_cfgmem -force -format bin -interface spix4 -size 16 -loadbit "
       ++ dquote ++ "up 0x0 {build_name}.bit" ++ dquote
       ++ " -file {build_name}.bin"];
    (* 2 *)
    ["set_property BITSTREAM.CONFIG.TIMER_CFG 0x0001fbd0 [current_design]"];
    (* 3 *)
    ["set_property BITSTREAM.CONFIG.CONFIGFALLBACK Enable [current_design]"];
    (* 4 *)
    ["write_bitstream -force {build_name}_operational.bit ";
     "write_cfgmem -force -format bin -interface spix4 -size 16 -loadbit "
       ++ dquote ++ "up 0x0 {build_name}_operational.bit" ++ dquote
       ++ " -file {build_name}_operational.bin"];
    (* 5 *)
    ["set_property BITSTREAM.CONFIG.NEXT_CONFIG_ADDR 0x00400000 [current_design]"];
    (* 6 *)
    ["write_bitstream -force {build_name}_fallback.bit ";
     "write_cfgmem -force -format bin -interface spix4 -size 16 -loadbit "
       ++ dquote ++ "up 0x0 {build_name}_fallback.bit" ++ dquote
       ++ " -file {build_name}_fallback.bin"]]
  /\ length (post_build_commands d) = 8.
Proof. cbv zeta. repeat split. Qed.

(** C10: two constructions with any two toolchain names give the same IO
    table, device identifier, default clock name and period, and the same
    two command lists. *)
Theorem init_noninterference (toolchain1 toolchain2 : option string) :
  let d1 := descriptor (Platform.__init__ toolchain1) in
  let d2 := descriptor (Platform.__init__ toolchain2) in
  io_table d1 = io_table d2
  /\ device_id d1 = device_id d2
  /\ default_clock_name d1 = default_clock_name d2
  /\ default_clock_period_ns d1 = default_clock_period_ns d2
  /\ pre_bitstream_commands d1 = pre_bitstream_commands d2
  /\ post_build_commands d1 = post_build_commands d2.
Proof. cbv zeta. repeat split. Qed.

(** C9: without a name [create_programmer] behaves as for [openocd] and
    returns the OpenOCD handle, without a toolchain the constructor behaves
    as for [vivado], and the two default names differ: the Vivado programmer
    is not what the default gives. *)
Theorem default_names (self : PlatformState) :
  Platform.create_programmer self None
    = Platform.create_programmer self (Some "openocd")
  /\ Platform.create_programmer self None
    = Return (Some (OpenOCD "openocd_xc7_ft232.cfg" "bscan_spi_xc7a200t.bit"))
  /\ Platform.__init__ None = Platform.__init__ (Some "vivado")
  /\ Platform.create_programmer self None
    <> Platform.create_programmer self (Some "vivado").
Proof. repeat split. discriminate. Qed.

(** ** Finalize *)

(** The base platform's finalize step runs first: when it raises, so does
    [do_finalize], with the same error. *)
Lemma do_finalize_base_raises (self : PlatformState) (fragment : Fragment)
  (e : ErrorKind) :
  base_do_finalize self fragment = Raise e ->
  Platform.do_finalize self fragment = Raise e.
Proof. intro H. unfold Platform.do_finalize. now rewrite H. Qed.

(** C3, amended: when the base finalize step has run and no clock of the
    finalized design resolves to [clk200], even loosely, [do_finalize] does
    not fail: it returns the state the base step left, with no timing
    constraint added. *)
Theorem do_finalize_missing_clock_ignored
  (self finalized : PlatformState) (fragment : Fragment) :
  base_do_finalize self fragment = Return finalized ->
  (forall clk, In clk (clock_resources finalized) ->
               resolves true "clk200" clk = false) ->
  Platform.do_finalize self fragment = Return finalized
  /\ forall final, Platform.do_finalize self fragment = Return final ->
                   period_constraints final = period_constraints finalized.
Proof.
  intros Hbase Hnone.
  assert (Platform.do_finalize self fragment = Return finalized) as Hrun.
  { unfold Platform.do_finalize. rewrite Hbase. simpl.
    unfold lookup_request. now rewrite (find_all_false _ _ Hnone). }
  split; [assumption|].
  intros final Hfinal. rewrite Hrun in Hfinal. now injection Hfinal as <-.
Qed.

(** C8: when the base finalize step has run and some clock of the finalized
    design resolves to [clk200], [do_finalize] returns the state the base
    step left with exactly one constraint appended, a period bound of 5.0 ns
    on a clock that resolves to [clk200]; nothing else changes. *)
Theorem do_finalize_adds_period
  (self finalized : PlatformState) (fragment : Fragment) :
  base_do_finalize self fragment = Return finalized ->
  (exists clk, In clk (clock_resources finalized)
               /\ resolves true "clk200" clk = true) ->
  exists clk final,
    In clk (clock_resources finalized)
    /\ resolves true "clk200" clk = true
    /\ Platform.do_finalize self fragment = Return final
    /\ period_constraints final
         = (period_constraints finalized ++ [(clk, 5%float)])%list
    /\ In (clk, 5%float) (period_constraints final)
    /\ device final = device finalized
    /\ io final = io finalized
    /\ toolchain final = toolchain finalized
    /\ clock_resources final = clock_resources finalized.
Proof.
  intros Hbase Hsome.
  destruct (find_some_exists _ _ Hsome) as [clk Hfind].
  destruct (find_some _ _ Hfind) as [Hin Hres].
  exists clk, (add_period_constraint finalized (Some clk) 5%float).
  split; [assumption|]. split; [assumption|]. split.
  - unfold Platform.do_finalize. rewrite Hbase. simpl.
    unfold lookup_request. now rewrite Hfind.
  - repeat split. simpl. apply in_or_app. right. now left.
Qed.

End WithLitex.

(** C1, as the specification has it, fails: the post-build list has 8
    entries, not 6. *)
Lemma additional_commands_not_six :
  length (post_build_commands (descriptor demo_platform)) = 8
  /\ length (post_build_commands (descriptor demo_platform)) <> 6.
Proof. split; [reflexivity|discriminate]. Qed.

(** The toolchain name does reach the platform object, only not the fields
    of the descriptor. *)
Example init_keeps_toolchain :
  backend (toolchain (@Platform.__init__ demo_litex (Some "symbiflow")))
    = "symbiflow"
  /\ @Platform.__init__ demo_litex (Some "symbiflow") <> demo_platform.
Proof. split; [reflexivity|discriminate]. Qed.

(** C3, as the specification has it, fails: on a design that only
    requested [clk125], [do_finalize] returns and raises nothing. *)
Lemma do_finalize_missing_clock_not_raised :
  @Platform.do_finalize demo_litex demo_platform ["clk125"]
    = Return {| device := device demo_platform;
                io := io demo_platform;
                toolchain := toolchain demo_platform;
                clock_resources := ["clk125"];
                period_constraints := [] |}
  /\ @Platform.do_finalize demo_litex demo_platform ["clk125"]
       <> Raise MissingClockConstraint.
Proof. split; [reflexivity|discriminate]. Qed.

(** C3, amended, on the stand-in: the same design. *)
Lemma do_finalize_missing_clock_ignored_witness :
  @Platform.do_finalize demo_litex demo_platform ["clk125"]
    = Return {| device := device demo_platform;
                io := io demo_platform;
                toolchain := toolchain demo_platform;
                clock_resources := ["clk125"];
                period_constraints := [] |}
  /\ forall final,
       @Platform.do_finalize demo_litex demo_platform ["clk125"] = Return final ->
       period_constraints final = [].
Proof.
  apply (@do_finalize_missing_clock_ignored demo_litex demo_platform).
  - reflexivity.
  - intros clk [<- | []]. reflexivity.
Defined.

(** C8 on the stand-in: a design whose [clk200] was renamed [clk200_p]. *)
Lemma do_finalize_adds_period_witness :
  exists clk final,
    In clk ["clk125"; "clk200_p"]
    /\ demo_resolves true "clk200" clk = true
    /\ @Platform.do_finalize demo_litex demo_platform ["clk125"; "clk200_p"]
       = Return final
    /\ period_constraints final = ([] ++ [(clk, 5%float)])%list
    /\ In (clk, 5%float) (period_constraints final)
    /\ device final = device demo_platform
    /\ io final = io demo_platform
    /\ toolchain final = toolchain demo_platform
    /\ clock_resources final = ["clk125"; "clk200_p"].
Proof.
  apply (@do_finalize_adds_period demo_litex demo_platform
           {| device := device demo_platform;
              io := io demo_platform;
              toolchain := toolchain demo_platform;
              clock_resources := ["clk125"; "clk200_p"];
              period_constraints := [] |}).
  - reflexivity.
  - exists "clk200_p". split; [simpl; auto|reflexivity].
Defined.

(** * Further properties *)

(** ** Row names *)

Lemma key_eqb_refl (k : string * Z) : key_eqb k k = true.
Proof. unfold key_eqb. now rewrite String.eqb_refl, Z.eqb_refl. Qed.

Lemma repeated_keys_complete (table : list PinConstraint) :
  forall i j r1 r2,
    i < j -> nth_error table i = Some r1 -> nth_error table j = Some r2 ->
    key r1 = key r2 -> In (key r1) (repeated_keys table).
Proof.
  induction table as [|r rest IH]; intros i j r1 r2 Hlt H1 H2 Hkey.
  - destruct i; discriminate.
  - destruct j as [|j]; [lia|]. simpl in H2.
    destruct i as [|i]; simpl in H1.
    + injection H1 as ->. simpl.
      assert (existsb (fun r' => key_eqb (key r1) (key r')) rest = true) as ->.
      { apply existsb_exists. exists r2. split.
        - now apply nth_error_In with j.
        - rewrite Hkey. apply key_eqb_refl. }
      now left.
    + assert (In (key r1) (repeated_keys rest)) as Hin.
      { apply (IH i j r1 r2); [lia|assumption..]. }
      simpl. destruct (existsb _ rest); [now right|assumption].
Qed.

(** X3: [("sma", 2)] is the only name two rows of [_io] share: two rows at
    different places with the same [(signal_name, index)] pair are both
    called [("sma", 2)]. *)
Theorem io_only_sma2_repeated (i j : nat) (r1 r2 : PinConstraint) :
  i <> j -> nth_error _io i = Some r1 -> nth_error _io j = Some r2 ->
  key r1 = key r2 ->
  key r1 = ("sma", 2%Z) /\ key r2 = ("sma", 2%Z).
Proof.
  intros Hij H1 H2 Hkey.
  assert (In (key r1) (repeated_keys _io)) as Hin.
  { destruct (Nat.lt_total i j) as [Hlt | [Heq | Hgt]].
    - now apply (repeated_keys_complete _io i j r1 r2).
    - contradiction.
    - rewrite Hkey. now apply (repeated_keys_complete _io j i r2 r1). }
  assert (repeated_keys _io = [("sma", 2%Z)]) as Hrep by reflexivity.
  rewrite Hrep in Hin. destruct Hin as [Hin | []].
  split; [|rewrite <- Hkey]; now symmetry.
Qed.

Lemma io_only_sma2_repeated_witness :
  key (Row "sma" 2 [
    Subsignal "in"     [Pins "AA21"; IOStandard "LVCMOS33"; Misc "PULLDOWN=TRUE"];
    Subsignal "in_en"  [Pins "K14";  IOStandard "LVCMOS33"];
    Subsignal "out"    [Pins "V10";  IOStandard "LVCMOS33"; Misc "DRIVE=16"];
    Subsignal "out_en" [Pins "K13";  IOStandard "LVCMOS33"]]) = ("sma", 2%Z)
  /\ key (Row "sma" 2 [
    Subsignal "in"     [Pins "AA20"; IOStandard "LVCMOS33"; Misc "PULLDOWN=TRUE"];
    Subsignal "in_en"  [Pins "L13";  IOStandard "LVCMOS33"];
    Subsignal "out"    [Pins "W10";  IOStandard "LVCMOS33"; Misc "DRIVE=16"];
    Subsignal "out_en" [Pins "M13";  IOStandard "LVCMOS33"]]) = ("sma", 2%Z).
Proof.
  apply (io_only_sma2_repeated 22 23); [discriminate|reflexivity..].
Defined.

(** ** Programmers and construction, once more *)

(** X1: [create_programmer] never raises, and it returns a programmer
    exactly when the name, given or defaulted, is [openocd] or [vivado]:
    the OpenOCD handle for the first and the Vivado handle for the second,
    whatever the platform object. *)
Theorem create_programmer_returns_iff
  (self : PlatformState) (name : option string) (p : Programmer) :
  (forall e, Platform.create_programmer self name <> Raise e)
  /\ (Platform.create_programmer self name = Return (Some p) <->
      (kwarg "openocd" name = "openocd"
       /\ p = OpenOCD "openocd_xc7_ft232.cfg" "bscan_spi_xc7a200t.bit")
      \/ (kwarg "openocd" name = "vivado"
          /\ p = VivadoProgrammer "s25fl256sxxxxxx0-spi-x1_x2_x4")).
Proof.
  unfold Platform.create_programmer.
  destruct (String.eqb_spec (kwarg "openocd" name) "openocd") as [Ho | Ho].
  - split; [discriminate|]. split.
    + intro H. injection H as <-. now left.
    + intros [[_ ->] | [Hv _]]; [reflexivity|].
      rewrite Ho in Hv. discriminate.
  - destruct (String.eqb_spec (kwarg "openocd" name) "vivado") as [Hv | Hv].
    + split; [discriminate|]. split.
      * intro H. injection H as <-. now right.
      * intros [[Ho' _] | [_ ->]]; [contradiction|reflexivity].
    + split; [discriminate|]. split.
      * discriminate.
      * intros [[Ho' _] | [Hv' _]]; contradiction.
Qed.

(** X2: the constructor assigns the two command lists, it does not extend
    them: whatever commands the toolchain object of the base platform came
    with, and for any two base platforms and toolchain names, the
    descriptors are equal; the rest of the toolchain object is the one the
    base platform installed for the name, [vivado] when none is given. *)
Theorem init_replaces_commands
  (litex1 litex2 : Xilinx7SeriesPlatform) (toolchain1 toolchain2 : option string) :
  descriptor (@Platform.__init__ litex1 toolchain1)
    = descriptor (@Platform.__init__ litex2 toolchain2)
  /\ backend (toolchain (@Platform.__init__ litex1 toolchain1))
    = backend (@new_toolchain litex1 (kwarg "vivado" toolchain1)).
Proof. split; reflexivity. Qed.
